(** * binPacking: the 3D visualiser's scene engine

    A shallow embedding of the scene-synchronisation code of the
    [BinVisualizer] component (rotation transform, packed-item placement,
    unpacked-item grid, camera view modes, hover picking, scene cleanup and
    rebuild) and of [utils/geometry.js], followed by the properties proved
    about it.

    Numbers.  A JavaScript number is modelled by [num]: an exact rational,
    one of the two infinities, or NaN.  Arithmetic on finite values is exact
    (no rounding) and there is no negative zero; everything else
    (propagation of NaN, comparisons with NaN being false, [Math.max]
    returning NaN as soon as one argument is NaN, [x || y] on numbers) follows
    the language. *)

From Stdlib Require Import QArith Qminmax Qabs Qround ZArith List String Bool Lia Lqa.
From Stdlib Require Import Permutation DecimalString.
Import ListNotations.

Local Set Warnings "-register-all".
Local Open Scope Q_scope.

(* ================================================================= *)
(** * Part I: the embedding *)
(* ================================================================= *)

(** ** JavaScript numbers *)

Module JsNum.

Inductive num : Type :=
| Fin (q : Q)
| PosInf
| NegInf
| NaN.

Definition Qlt_bool (x y : Q) : bool := negb (Qle_bool y x).

(** Truncation towards zero, and the exact remainder with the sign of the
    dividend (the [%] of the language on finite operands). *)
Definition Qtrunc (q : Q) : Z := Z.quot (Qnum q) (Zpos (Qden q)).
Definition Qfmod (x y : Q) : Q := x - y * inject_Z (Qtrunc (x / y)).

(** Sign of a number as an integer in {-1,0,1}; NaN has none. *)
Definition sgn (a : num) : Z :=
  match a with
  | Fin q => Z.sgn (Qnum q)
  | PosInf => 1
  | NegInf => (-1)
  | NaN => 0
  end.

Definition of_sign (s : Z) : num :=
  match s with
  | Z0 => NaN
  | Zpos _ => PosInf
  | Zneg _ => NegInf
  end.

Definition is_nan (a : num) : bool :=
  match a with NaN => true | _ => false end.


Definition nneg (a : num) : num :=
  match a with
  | Fin q => Fin (- q)
  | PosInf => NegInf
  | NegInf => PosInf
  | NaN => NaN
  end.

Definition nadd (a b : num) : num :=
  match a, b with
  | NaN, _ | _, NaN => NaN
  | Fin x, Fin y => Fin (x + y)
  | PosInf, NegInf | NegInf, PosInf => NaN
  | PosInf, _ | _, PosInf => PosInf
  | NegInf, _ | _, NegInf => NegInf
  end.

Definition nsub (a b : num) : num := nadd a (nneg b).

Definition nmul (a b : num) : num :=
  match a, b with
  | NaN, _ | _, NaN => NaN
  | Fin x, Fin y => Fin (x * y)
  | _, _ => of_sign (sgn a * sgn b)
  end.

Definition ndiv (a b : num) : num :=
  match a, b with
  | NaN, _ | _, NaN => NaN
  | Fin x, Fin y => if Qeq_bool y 0 then of_sign (sgn a) else Fin (x / y)
  | Fin _, _ => Fin 0
  | _, Fin y => if Qeq_bool y 0 then a else of_sign (sgn a * sgn b)
  | _, _ => NaN
  end.

(** [a % b] *)
Definition nrem (a b : num) : num :=
  match a, b with
  | Fin x, Fin y => if Qeq_bool y 0 then NaN else Fin (Qfmod x y)
  | Fin x, (PosInf | NegInf) => Fin x
  | _, _ => NaN
  end.

(** [Math.abs] *)
Definition nabs (a : num) : num :=
  match a with
  | Fin q => Fin (Qabs q)
  | PosInf | NegInf => PosInf
  | NaN => NaN
  end.

(** [a < b], [a <= b], [a >= b]: false as soon as one side is NaN. *)
Definition nlt (a b : num) : bool :=
  match a, b with
  | NaN, _ | _, NaN => false
  | Fin x, Fin y => Qlt_bool x y
  | NegInf, NegInf | PosInf, _ => false
  | NegInf, _ => true
  | Fin _, PosInf => true
  | Fin _, NegInf => false
  end.

Definition nle (a b : num) : bool :=
  match a, b with
  | NaN, _ | _, NaN => false
  | Fin x, Fin y => Qle_bool x y
  | NegInf, _ | _, PosInf => true
  | _, _ => false
  end.

Definition nge (a b : num) : bool := nle b a.

(** [Math.max] and [Math.min] of two arguments. *)
Definition nmax (a b : num) : num :=
  match a, b with
  | NaN, _ | _, NaN => NaN
  | Fin x, Fin y => Fin (Qmax x y)
  | PosInf, _ | _, PosInf => PosInf
  | NegInf, c | c, NegInf => c
  end.

Definition nmin (a b : num) : num :=
  match a, b with
  | NaN, _ | _, NaN => NaN
  | Fin x, Fin y => Fin (Qmin x y)
  | NegInf, _ | _, NegInf => NegInf
  | PosInf, c | c, PosInf => c
  end.

(** Truthiness of a number, and [a || b] on numbers. *)
Definition truthy (a : num) : bool :=
  match a with
  | Fin q => negb (Qeq_bool q 0)
  | PosInf | NegInf => true
  | NaN => false
  end.

Definition nor (a b : num) : num := if truthy a then a else b.

(** Equality of numbers up to the representation of a rational. *)
Definition num_eq (a b : num) : Prop :=
  match a, b with
  | Fin x, Fin y => x == y
  | PosInf, PosInf | NegInf, NegInf | NaN, NaN => True
  | _, _ => False
  end.


End JsNum.

Export JsNum.

Declare Scope num_scope.
Delimit Scope num_scope with num.
Bind Scope num_scope with num.
Infix "+" := nadd : num_scope.
Infix "-" := nsub : num_scope.
Infix "*" := nmul : num_scope.
Infix "/" := ndiv : num_scope.
Infix "=n=" := num_eq (at level 70, no associativity).

(** Decimal literals of the source, as numbers. *)
Coercion Fin : Q >-> num.

(** ** utils/geometry.js *)

Module Geometry.

Record Dims := mkDims { width : num; height : num; depth : num }.
Record Point := mkPoint { x : num; y : num; z : num }.


Definition calculateSurfaceArea (width height depth : num) : num :=
  (Fin 2 * (width * height + width * depth + height * depth))%num.

Definition checkFit (item container : Dims) (position : Point) : bool :=
  let '(mkPoint x y z) := position in
  let '(mkDims w h d) := item in
  let '(mkDims cw ch cd) := container in
  nge x (Fin 0) && nle (x + w) cw &&
  nge y (Fin 0) && nle (y + h) ch &&
  nge z (Fin 0) && nle (z + d) cd.


Definition calculateCenter (x y z width height depth : num) : Point :=
  mkPoint (x + width / Fin 2) (y + height / Fin 2) (z + depth / Fin 2).

End Geometry.

(** ** The rotation transform *)

Module Rotation.

Import Geometry.

(** One axis of [getRotatedDimensions]: the test
    [Math.abs(r - 90) < 1 || Math.abs(r - 270) < 1]. *)
Definition quarter_turn (r : num) : bool :=
  nlt (nabs (r - Fin 90)) (Fin 1) || nlt (nabs (r - Fin 270)) (Fin 1).

Definition getRotatedDimensions (width height depth rotX rotY rotZ : num) : Dims :=
  let rx := nabs (nrem rotX (Fin 360)) in
  let ry := nabs (nrem rotY (Fin 360)) in
  let rz := nabs (nrem rotZ (Fin 360)) in
  let '(w, h, d) := (width, height, depth) in
  let '(w, h) := if quarter_turn rz then (h, w) else (w, h) in
  let '(w, d) := if quarter_turn ry then (d, w) else (w, d) in
  let '(h, d) := if quarter_turn rx then (d, h) else (h, d) in
  mkDims w h d.

End Rotation.

(** ** The packing-result document *)

Module Document.

Import Geometry.

(** An element of a [dimensions], [position] or [rotation] array, as the
    parsing code observes it.  The code only asks whether the value is a
    non-null object and what [parseFloat] makes of it (of [toString()] of
    it, for an object), so a value is represented by these two facts:
    [Prim v] is a primitive whose [parseFloat] is [v] (a number is its own
    [parseFloat]; [undefined], [null] and booleans give NaN; a string gives
    its parsed prefix), [Obj v] a non-null object or array whose string form
    parses to [v] (NaN for a plain object). *)
Inductive entry : Type :=
| Prim (v : num)
| Obj (v : num).

(** An array-valued field of an item: absent (or otherwise falsy), an
    array, or a truthy value with no [map] method. *)
Inductive field : Type :=
| Absent
| Arr (l : list entry)
| NotArray.

Record Item := mkItem {
  item_id : option string;
  item_name : option string;
  item_original_name : option string;
  item_dimensions : field;
  item_position : field;
  item_rotation : field;
  item_color : option string;
  item_reason : option string
}.

(** The container fields after [parseFloat] (NaN when a field is absent). *)
Record Container := mkContainer {
  c_width : num;
  c_height : num;
  c_depth : num
}.

(** An element of an item array is an item object, or [None] for a
    [null]/[undefined] hole (a primitive element behaves as an object with
    every field absent). *)
Definition ItemList := list (option Item).

Record VisualizationData := mkVisualizationData {
  vd_container : option Container;
  vd_items : option ItemList;
  vd_unpacked_items : option ItemList
}.

(** [bins[0]] *)
Record Bin := mkBin {
  bin_dimensions : option Container;
  bin_items : option ItemList
}.

Record Statistics := mkStatistics {
  space_utilization : num;
  packing_efficiency : num
}.

Record PackingResult := mkPackingResult {
  visualization_data : option VisualizationData;
  bins : option Bin;
  packedItems : option ItemList;
  unpacked_items : option ItemList;
  statistics : option Statistics;
  efficiency : num
}.

(** [a || b] where [a] is an optional string: absent and empty are falsy. *)
Definition str_or (a : option string) (b : string) : string :=
  match a with
  | Some s => if String.eqb s EmptyString then b else s
  | None => b
  end.

(** Non-empty lists are what [x.length > 0] tests; a present array, even
    empty, is truthy. *)
Definition opt_or {A : Type} (a : option A) (b : option A) : option A :=
  match a with Some _ => a | None => b end.

Definition decimal (n : nat) : string :=
  NilZero.string_of_uint (Nat.to_uint n).

(** [packingResult.visualization_data?.container], then [bins[0].dimensions] *)
Definition containerData (r : PackingResult) : option Container :=
  match visualization_data r with
  | Some vd => opt_or (vd_container vd)
                 (match bins r with Some b => bin_dimensions b | None => None end)
  | None => match bins r with Some b => bin_dimensions b | None => None end
  end.

Definition packedItemsOf (r : PackingResult) : ItemList :=
  let vd := match visualization_data r with Some vd => vd_items vd | None => None end in
  let bi := match bins r with Some b => bin_items b | None => None end in
  match opt_or vd (opt_or bi (packedItems r)) with
  | Some l => l
  | None => []
  end.

Definition unpackedItemsOf (r : PackingResult) : ItemList :=
  let vd := match visualization_data r with Some vd => vd_unpacked_items vd | None => None end in
  match opt_or vd (unpacked_items r) with
  | Some l => l
  | None => []
  end.

Definition containerWidthOf (c : Container) : num := nor (c_width c) (Fin 17).
Definition containerHeightOf (c : Container) : num := nor (c_height c) (Fin 8).
Definition containerDepthOf (c : Container) : num := nor (c_depth c) (Fin 10).

End Document.

(** ** Placement of one packed item and of one unpacked item *)

Module Placement.

Import Geometry Rotation Document.

(** Result of one iteration of a [forEach] body wrapped in [try]/[catch]:
    a mesh is created, the entry is skipped by the early [return], or an
    exception is thrown and caught. *)
Inductive outcome (A : Type) : Type :=
| Created (a : A)
| Skipped
| Caught.
Arguments Created {A} a.
Arguments Skipped {A}.
Arguments Caught {A}.

(** The [map] callbacks of the three arrays. *)
Definition parseDimension (d : entry) : num :=
  match d with
  | Obj v => v
  | Prim v => nor v (Fin 0.5)
  end.

Definition parseCoordinate (p : entry) : num :=
  match p with
  | Obj v => v
  | Prim v => nor v (Fin 0)
  end.

(** Array destructuring [[a, b, c] = l]: a missing element is [undefined],
    which every later arithmetic use converts to NaN. *)
Definition elem (l : list num) (i : nat) : num := nth i l NaN.

Record Placed := mkPlaced {
  p_id : string;
  p_name : string;
  p_color : string;
  p_size : Dims;            (* width, height, depth after the floor *)
  p_pos : Point;            (* posX, posY, posZ after the clamp *)
  p_rot : Point;            (* rotX, rotY, rotZ in degrees *)
  p_rotated : Dims;         (* rotatedDims *)
  p_center : Point;         (* centerX, centerY, centerZ *)
  p_reason : string
}.

Definition placePackedItem (containerWidth containerHeight containerDepth : num)
    (index : nat) (item : option Item) : outcome Placed :=
  match item with
  | None => Caught
  | Some item =>
    match item_dimensions item, item_position item with
    | Absent, _ | _, Absent => Skipped
    | NotArray, _ | _, NotArray => Caught
    | Arr dimensions, Arr position =>
      match (match item_rotation item with
             | Absent => Arr [Prim (Fin 0); Prim (Fin 0); Prim (Fin 0)]
             | f => f
             end) with
      | Absent | NotArray => Caught
      | Arr rotation =>
        let ds := map parseDimension dimensions in
        let ps := map parseCoordinate position in
        let rs := map parseCoordinate rotation in
        let '(width, height, depth) := (elem ds 0, elem ds 1, elem ds 2) in
        let '(posX, posY, posZ) := (elem ps 0, elem ps 1, elem ps 2) in
        let '(rotX, rotY, rotZ) := (elem rs 0, elem rs 1, elem rs 2) in
        let color := str_or (item_color item) "#10b981" in
        let id := str_or (item_id item) ("item_" ++ decimal index) in
        let name := str_or (item_original_name item) (str_or (item_name item) id) in
        let width := nmax width (Fin 0.01) in
        let height := nmax height (Fin 0.01) in
        let depth := nmax depth (Fin 0.01) in
        let maxX := (containerWidth - width - Fin 0.001)%num in
        let maxY := (containerHeight - height - Fin 0.001)%num in
        let maxZ := (containerDepth - depth - Fin 0.001)%num in
        let posX := nmax (Fin 0.001) (nmin posX maxX) in
        let posY := nmax (Fin 0.001) (nmin posY maxY) in
        let posZ := nmax (Fin 0.001) (nmin posZ maxZ) in
        let rotatedDims := getRotatedDimensions width height depth rotX rotY rotZ in
        let centerX := (posX + Geometry.width rotatedDims / Fin 2)%num in
        let centerY := (posY + Geometry.height rotatedDims / Fin 2)%num in
        let centerZ := (posZ + Geometry.depth rotatedDims / Fin 2)%num in
        Created (mkPlaced id name color (mkDims width height depth)
                   (mkPoint posX posY posZ) (mkPoint rotX rotY rotZ)
                   rotatedDims (mkPoint centerX centerY centerZ) "")
      end
    end
  end.

(** The holding area for unpacked items, derived from the container. *)
Definition unpackedAreaX (containerWidth : num) : num := (containerWidth + Fin 15)%num.
Definition unpackedAreaWidth : num := Fin 30.
Definition unpackedAreaHeight (containerHeight : num) : num := containerHeight.
Definition unpackedAreaDepth (containerDepth : num) : num := nmax containerDepth (Fin 15).

Definition gridCellSize : num := Fin 8.
Definition itemsPerRow : nat := 3.

Definition of_nat (n : nat) : num := Fin (inject_Z (Z.of_nat n)).

Definition gridRow (index : nat) : nat := Nat.div index itemsPerRow.
Definition gridCol (index : nat) : nat := Nat.modulo index itemsPerRow.

(** The unclamped grid corner of the cell of item [index]. *)
Definition gridCorner (containerWidth containerDepth : num) (index : nat) : Point :=
  let startX := (unpackedAreaX containerWidth - unpackedAreaWidth / Fin 2
                 + gridCellSize / Fin 2)%num in
  let startZ := (unpackedAreaDepth containerDepth / Fin 2 - gridCellSize / Fin 2)%num in
  mkPoint (startX + of_nat (gridCol index) * gridCellSize)%num
          (Fin 0)
          (startZ - of_nat (gridRow index) * gridCellSize)%num.

Definition placeUnpackedItem (containerWidth containerHeight containerDepth : num)
    (index : nat) (item : option Item) : outcome Placed :=
  match item with
  | None => Caught
  | Some item =>
    match item_dimensions item with
    | Absent => Skipped
    | NotArray => Caught
    | Arr dimensions =>
      let ds := map parseDimension dimensions in
      let '(width, height, depth) := (elem ds 0, elem ds 1, elem ds 2) in
      let color := str_or (item_color item) "#ef4444" in
      let id := str_or (item_id item) ("unpacked_" ++ decimal index) in
      let name := str_or (item_name item) id in
      let reason := str_or (item_reason item) "No space available" in
      let width := nmax width (Fin 0.01) in
      let height := nmax height (Fin 0.01) in
      let depth := nmax depth (Fin 0.01) in
      let '(mkPoint cornerX cornerY cornerZ) :=
        gridCorner containerWidth containerDepth index in
      let areaX := unpackedAreaX containerWidth in
      let maxX := (areaX + unpackedAreaWidth / Fin 2 - width - Fin 0.001)%num in
      let minX := (areaX - unpackedAreaWidth / Fin 2 + Fin 0.001)%num in
      let maxZ := (unpackedAreaDepth containerDepth - depth - Fin 0.001)%num in
      let minZ := Fin 0.001 in
      let clampedX := nmax minX (nmin cornerX maxX) in
      let clampedZ := nmax minZ (nmin cornerZ maxZ) in
      let clampedY := nmax (Fin 0.001) cornerY in
      let centerX := (clampedX + width / Fin 2)%num in
      let centerY := (clampedY + height / Fin 2)%num in
      let centerZ := (clampedZ + depth / Fin 2)%num in
      Created (mkPlaced id name color (mkDims width height depth)
                 (mkPoint clampedX clampedY clampedZ) (mkPoint (Fin 0) (Fin 0) (Fin 0))
                 (mkDims width height depth) (mkPoint centerX centerY centerZ) reason)
    end
  end.

End Placement.

(** ** The scene graph and the component's mutable state *)

Module Scene.

Import Geometry Rotation Document Placement.

Inductive Color : Type :=
| Hex (c : N)
| Css (s : string).

(** Geometries and materials are resources with an identity ([g_id],
    [m_id]): [dispose()] is recorded against it, and the emissive colour of a
    material lives in the state under its identity, so that a mesh held by a
    ref and the same mesh in the scene graph see one material. *)
Inductive GeometryKind : Type :=
| BoxGeometry (w h d : num)
| EdgesOfBox (w h d : num)
| SphereGeometry (r : num)
| BufferGeometry (points : list Point).

Record GeometryRes := mkGeometry { g_id : nat; g_kind : GeometryKind }.

Inductive MaterialKind : Type :=
| MeshPhongMaterial
| MeshBasicMaterial
| LineBasicMaterial
| LineDashedMaterial.

Record MaterialRes := mkMaterial {
  m_id : nat;
  m_kind : MaterialKind;
  m_color : Color
}.

(** [userData]: a field that was never set is [None] (or [false] for the
    flags, which are only tested for truthiness). *)
Record UserData := mkUserData {
  isPackedItem : bool;
  isContainer : bool;
  isUnpackedItem : bool;
  isUnpackedArea : bool;
  isDashedLine : bool;
  ud_itemName : option string;
  ud_name : option string;
  ud_dimensions : option Dims;
  ud_rotatedDimensions : option Dims;
  ud_originalColor : option string;
  ud_color : option string;
  ud_originalPosition : option Point;
  ud_position : option Point;
  ud_centerPosition : option Point;
  ud_isOutOfBounds : bool;
  ud_isUnpacked : bool;
  ud_rotation : option Point;
  ud_reason : option string
}.

Definition emptyUserData : UserData :=
  mkUserData false false false false false None None None None None None
             None None None false false None None.

Definition flag_isContainer : UserData :=
  mkUserData false true false false false None None None None None None
             None None None false false None None.

Definition flag_isUnpackedArea : UserData :=
  mkUserData false false false true false None None None None None None
             None None None false false None None.

Definition flag_isDashedLine : UserData :=
  mkUserData false false false false true None None None None None None
             None None None false false None None.

Inductive Kind : Type :=
| Group
| Mesh
| Line
| LineSegments
| Light
| GridHelper.

(** An object of the scene graph.  [o_rotation] is kept in degrees. *)
Inductive Obj : Type :=
| mkObj (o_id : nat) (o_kind : Kind) (o_userData : UserData)
        (o_position : Point) (o_rotation : Point)
        (o_geometry : option GeometryRes) (o_material : option MaterialRes)
        (o_children : list Obj).

Definition o_id (o : Obj) : nat := let '(mkObj i _ _ _ _ _ _ _) := o in i.
Definition o_kind (o : Obj) : Kind := let '(mkObj _ k _ _ _ _ _ _) := o in k.
Definition o_userData (o : Obj) : UserData := let '(mkObj _ _ u _ _ _ _ _) := o in u.
Definition o_position (o : Obj) : Point := let '(mkObj _ _ _ p _ _ _ _) := o in p.
Definition o_rotation (o : Obj) : Point := let '(mkObj _ _ _ _ r _ _ _) := o in r.
Definition o_geometry (o : Obj) : option GeometryRes :=
  let '(mkObj _ _ _ _ _ g _ _) := o in g.
Definition o_material (o : Obj) : option MaterialRes :=
  let '(mkObj _ _ _ _ _ _ m _) := o in m.
Definition o_children (o : Obj) : list Obj := let '(mkObj _ _ _ _ _ _ _ c) := o in c.

Definition origin : Point := mkPoint (Fin 0) (Fin 0) (Fin 0).

(** [traverse]: the object itself, then its descendants, depth first. *)
Fixpoint traverse (o : Obj) : list Obj :=
  match o with
  | mkObj _ _ _ _ _ _ _ ch => o :: flat_map traverse ch
  end.

Definition traverse_all (l : list Obj) : list Obj := flat_map traverse l.

(** [parent.remove(child)] for every object of the graph selected by [bad]
    (a test on identity and [userData]): the selected objects leave the
    graph together with their subtrees. *)
Fixpoint detach (bad : nat -> UserData -> bool) (o : Obj) : Obj :=
  match o with
  | mkObj i k u p r g m ch =>
      mkObj i k u p r g m
        (filter (fun c => negb (bad (o_id c) (o_userData c))) (map (detach bad) ch))
  end.

Definition detach_all (bad : nat -> UserData -> bool) (l : list Obj) : list Obj :=
  filter (fun c => negb (bad (o_id c) (o_userData c))) (map (detach bad) l).

(** [group.add(child)] for the group of identity [gid], wherever it is. *)
Fixpoint add_children (gid : nat) (new : list Obj) (o : Obj) : Obj :=
  match o with
  | mkObj i k u p r g m ch =>
      let ch' := map (add_children gid new) ch in
      mkObj i k u p r g m (if Nat.eqb i gid then ch' ++ new else ch')
  end.

Record Camera := mkCamera {
  cam_position : Point;
  cam_lookAt : Point
}.

Record Controls := mkControls {
  target : Point;
  enableRotate : bool;
  enablePan : bool
}.

(** What the hover tooltip receives. *)
Record Hover := mkHover {
  h_name : string;
  h_dimensions : Dims;
  h_color : string;
  h_position : Point;
  h_isOutOfBounds : bool;
  h_isUnpacked : bool;
  h_rotation : Point;
  h_reason : string
}.

Inductive DebugInfo : Type :=
| DebugEmpty
| NoContainerData
| Summary (packedCount unpackedCount : nat) (efficiency : num).

Record Emissive := mkEmissive { e_color : N; e_intensity : num }.

Inductive ViewMode : Type :=
| View3D
| Top
| Front
| Side.

(** The refs and the pieces of React state the engine reads and writes. *)
Record State := mkState {
  next_id : nat;                          (* identity of the next allocation *)
  sceneRef : option (list Obj);           (* children of the THREE.Scene *)
  cameraRef : option Camera;
  controlsRef : option Controls;
  isInitialized : bool;
  itemMeshesRef : list Obj;
  unpackedMeshesRef : list Obj;
  containerGroupRef : option Obj;
  unpackedAreaGroupRef : option Obj;
  separatorLineRef : option Obj;
  dashedLinesRef : list Obj;
  emissive : nat -> Emissive;             (* per material identity *)
  disposed : list nat;                    (* log of dispose() calls *)
  animationFrameId : option nat;
  isRenderingRef : bool;
  hoveredItem : option Hover;
  debugInfo : DebugInfo;
  viewMode : ViewMode;
  showUnpackedArea : bool
}.

(** Assignment to one ref or one piece of state. *)
Definition set_next_id (v : nat) (s : State) : State :=
  mkState v (sceneRef s) (cameraRef s) (controlsRef s) (isInitialized s)
    (itemMeshesRef s) (unpackedMeshesRef s) (containerGroupRef s)
    (unpackedAreaGroupRef s) (separatorLineRef s) (dashedLinesRef s)
    (emissive s) (disposed s) (animationFrameId s) (isRenderingRef s)
    (hoveredItem s) (debugInfo s) (viewMode s) (showUnpackedArea s).
Definition set_sceneRef (v : option (list Obj)) (s : State) : State :=
  mkState (next_id s) v (cameraRef s) (controlsRef s) (isInitialized s)
    (itemMeshesRef s) (unpackedMeshesRef s) (containerGroupRef s)
    (unpackedAreaGroupRef s) (separatorLineRef s) (dashedLinesRef s)
    (emissive s) (disposed s) (animationFrameId s) (isRenderingRef s)
    (hoveredItem s) (debugInfo s) (viewMode s) (showUnpackedArea s).
Definition set_cameraRef (v : option Camera) (s : State) : State :=
  mkState (next_id s) (sceneRef s) v (controlsRef s) (isInitialized s)
    (itemMeshesRef s) (unpackedMeshesRef s) (containerGroupRef s)
    (unpackedAreaGroupRef s) (separatorLineRef s) (dashedLinesRef s)
    (emissive s) (disposed s) (animationFrameId s) (isRenderingRef s)
    (hoveredItem s) (debugInfo s) (viewMode s) (showUnpackedArea s).
Definition set_controlsRef (v : option Controls) (s : State) : State :=
  mkState (next_id s) (sceneRef s) (cameraRef s) v (isInitialized s)
    (itemMeshesRef s) (unpackedMeshesRef s) (containerGroupRef s)
    (unpackedAreaGroupRef s) (separatorLineRef s) (dashedLinesRef s)
    (emissive s) (disposed s) (animationFrameId s) (isRenderingRef s)
    (hoveredItem s) (debugInfo s) (viewMode s) (showUnpackedArea s).
Definition set_isInitialized (v : bool) (s : State) : State :=
  mkState (next_id s) (sceneRef s) (cameraRef s) (controlsRef s) v
    (itemMeshesRef s) (unpackedMeshesRef s) (containerGroupRef s)
    (unpackedAreaGroupRef s) (separatorLineRef s) (dashedLinesRef s)
    (emissive s) (disposed s) (animationFrameId s) (isRenderingRef s)
    (hoveredItem s) (debugInfo s) (viewMode s) (showUnpackedArea s).
Definition set_itemMeshesRef (v : list Obj) (s : State) : State :=
  mkState (next_id s) (sceneRef s) (cameraRef s) (controlsRef s)
    (isInitialized s) v (unpackedMeshesRef s) (containerGroupRef s)
    (unpackedAreaGroupRef s) (separatorLineRef s) (dashedLinesRef s)
    (emissive s) (disposed s) (animationFrameId s) (isRenderingRef s)
    (hoveredItem s) (debugInfo s) (viewMode s) (showUnpackedArea s).
Definition set_unpackedMeshesRef (v : list Obj) (s : State) : State :=
  mkState (next_id s) (sceneRef s) (cameraRef s) (controlsRef s)
    (isInitialized s) (itemMeshesRef s) v (containerGroupRef s)
    (unpackedAreaGroupRef s) (separatorLineRef s) (dashedLinesRef s)
    (emissive s) (disposed s) (animationFrameId s) (isRenderingRef s)
    (hoveredItem s) (debugInfo s) (viewMode s) (showUnpackedArea s).
Definition set_containerGroupRef (v : option Obj) (s : State) : State :=
  mkState (next_id s) (sceneRef s) (cameraRef s) (controlsRef s)
    (isInitialized s) (itemMeshesRef s) (unpackedMeshesRef s) v
    (unpackedAreaGroupRef s) (separatorLineRef s) (dashedLinesRef s)
    (emissive s) (disposed s) (animationFrameId s) (isRenderingRef s)
    (hoveredItem s) (debugInfo s) (viewMode s) (showUnpackedArea s).
Definition set_unpackedAreaGroupRef (v : option Obj) (s : State) : State :=
  mkState (next_id s) (sceneRef s) (cameraRef s) (controlsRef s)
    (isInitialized s) (itemMeshesRef s) (unpackedMeshesRef s)
    (containerGroupRef s) v (separatorLineRef s) (dashedLinesRef s)
    (emissive s) (disposed s) (animationFrameId s) (isRenderingRef s)
    (hoveredItem s) (debugInfo s) (viewMode s) (showUnpackedArea s).
Definition set_separatorLineRef (v : option Obj) (s : State) : State :=
  mkState (next_id s) (sceneRef s) (cameraRef s) (controlsRef s)
    (isInitialized s) (itemMeshesRef s) (unpackedMeshesRef s)
    (containerGroupRef s) (unpackedAreaGroupRef s) v (dashedLinesRef s)
    (emissive s) (disposed s) (animationFrameId s) (isRenderingRef s)
    (hoveredItem s) (debugInfo s) (viewMode s) (showUnpackedArea s).
Definition set_dashedLinesRef (v : list Obj) (s : State) : State :=
  mkState (next_id s) (sceneRef s) (cameraRef s) (controlsRef s)
    (isInitialized s) (itemMeshesRef s) (unpackedMeshesRef s)
    (containerGroupRef s) (unpackedAreaGroupRef s) (separatorLineRef s) v
    (emissive s) (disposed s) (animationFrameId s) (isRenderingRef s)
    (hoveredItem s) (debugInfo s) (viewMode s) (showUnpackedArea s).
Definition set_emissive (v : nat -> Emissive) (s : State) : State :=
  mkState (next_id s) (sceneRef s) (cameraRef s) (controlsRef s)
    (isInitialized s) (itemMeshesRef s) (unpackedMeshesRef s)
    (containerGroupRef s) (unpackedAreaGroupRef s) (separatorLineRef s)
    (dashedLinesRef s) v (disposed s) (animationFrameId s)
    (isRenderingRef s) (hoveredItem s) (debugInfo s) (viewMode s)
    (showUnpackedArea s).
Definition set_disposed (v : list nat) (s : State) : State :=
  mkState (next_id s) (sceneRef s) (cameraRef s) (controlsRef s)
    (isInitialized s) (itemMeshesRef s) (unpackedMeshesRef s)
    (containerGroupRef s) (unpackedAreaGroupRef s) (separatorLineRef s)
    (dashedLinesRef s) (emissive s) v (animationFrameId s)
    (isRenderingRef s) (hoveredItem s) (debugInfo s) (viewMode s)
    (showUnpackedArea s).
Definition set_animationFrameId (v : option nat) (s : State) : State :=
  mkState (next_id s) (sceneRef s) (cameraRef s) (controlsRef s)
    (isInitialized s) (itemMeshesRef s) (unpackedMeshesRef s)
    (containerGroupRef s) (unpackedAreaGroupRef s) (separatorLineRef s)
    (dashedLinesRef s) (emissive s) (disposed s) v (isRenderingRef s)
    (hoveredItem s) (debugInfo s) (viewMode s) (showUnpackedArea s).
Definition set_isRenderingRef (v : bool) (s : State) : State :=
  mkState (next_id s) (sceneRef s) (cameraRef s) (controlsRef s)
    (isInitialized s) (itemMeshesRef s) (unpackedMeshesRef s)
    (containerGroupRef s) (unpackedAreaGroupRef s) (separatorLineRef s)
    (dashedLinesRef s) (emissive s) (disposed s) (animationFrameId s) v
    (hoveredItem s) (debugInfo s) (viewMode s) (showUnpackedArea s).
Definition set_hoveredItem (v : option Hover) (s : State) : State :=
  mkState (next_id s) (sceneRef s) (cameraRef s) (controlsRef s)
    (isInitialized s) (itemMeshesRef s) (unpackedMeshesRef s)
    (containerGroupRef s) (unpackedAreaGroupRef s) (separatorLineRef s)
    (dashedLinesRef s) (emissive s) (disposed s) (animationFrameId s)
    (isRenderingRef s) v (debugInfo s) (viewMode s) (showUnpackedArea s).
Definition set_debugInfo (v : DebugInfo) (s : State) : State :=
  mkState (next_id s) (sceneRef s) (cameraRef s) (controlsRef s)
    (isInitialized s) (itemMeshesRef s) (unpackedMeshesRef s)
    (containerGroupRef s) (unpackedAreaGroupRef s) (separatorLineRef s)
    (dashedLinesRef s) (emissive s) (disposed s) (animationFrameId s)
    (isRenderingRef s) (hoveredItem s) v (viewMode s) (showUnpackedArea s).
Definition set_viewMode (v : ViewMode) (s : State) : State :=
  mkState (next_id s) (sceneRef s) (cameraRef s) (controlsRef s)
    (isInitialized s) (itemMeshesRef s) (unpackedMeshesRef s)
    (containerGroupRef s) (unpackedAreaGroupRef s) (separatorLineRef s)
    (dashedLinesRef s) (emissive s) (disposed s) (animationFrameId s)
    (isRenderingRef s) (hoveredItem s) (debugInfo s) v (showUnpackedArea s).
Definition set_showUnpackedArea (v : bool) (s : State) : State :=
  mkState (next_id s) (sceneRef s) (cameraRef s) (controlsRef s)
    (isInitialized s) (itemMeshesRef s) (unpackedMeshesRef s)
    (containerGroupRef s) (unpackedAreaGroupRef s) (separatorLineRef s)
    (dashedLinesRef s) (emissive s) (disposed s) (animationFrameId s)
    (isRenderingRef s) (hoveredItem s) (debugInfo s) (viewMode s) v.

(** *** cleanupScene *)

Definition is_obj (o : Obj) : nat -> UserData -> bool :=
  fun i _ => Nat.eqb i (o_id o).

Definition flagged (u : UserData) : bool :=
  isPackedItem u || isContainer u || isUnpackedItem u || isUnpackedArea u
  || isDashedLine u.

(** Removing objects acts on the graph under the scene and on the two
    groups held by refs, which are the same objects as the groups in the
    graph. *)
Definition remove_from_graph (bad : nat -> UserData -> bool) (s : State) : State :=
  set_sceneRef (option_map (detach_all bad) (sceneRef s))
    (set_containerGroupRef (option_map (detach bad) (containerGroupRef s))
       (set_unpackedAreaGroupRef (option_map (detach bad) (unpackedAreaGroupRef s)) s)).

(** The geometry and the material of one object. *)
Definition resources (o : Obj) : list nat :=
  match o_geometry o with Some g => [g_id g] | None => [] end
  ++ match o_material o with Some m => [m_id m] | None => [] end.

Definition dispose (ids : list nat) (s : State) : State :=
  set_disposed (disposed s ++ ids) s.

(** [if (o.parent) o.parent.remove(o); o.geometry.dispose(); o.material.dispose()] *)
Definition removeAndDispose (s : State) (o : Obj) : State :=
  dispose (resources o) (remove_from_graph (is_obj o) s).

(** The same for a group, whose [traverse] disposes of every descendant. *)
Definition removeAndDisposeGroup (s : State) (g : Obj) : State :=
  dispose (flat_map resources (traverse g)) (remove_from_graph (is_obj g) s).

(** The blocks of [cleanupScene], in source order. *)
Definition cleanupSeparator (s : State) : State :=
  match separatorLineRef s with
  | Some l => set_separatorLineRef None (removeAndDispose s l)
  | None => s
  end.

Definition cleanupDashedLines (s : State) : State :=
  set_dashedLinesRef [] (fold_left removeAndDispose (dashedLinesRef s) s).

Definition cleanupItemMeshes (s : State) : State :=
  set_itemMeshesRef [] (fold_left removeAndDispose (itemMeshesRef s) s).

Definition cleanupUnpackedMeshes (s : State) : State :=
  set_unpackedMeshesRef [] (fold_left removeAndDispose (unpackedMeshesRef s) s).

Definition cleanupContainerGroup (s : State) : State :=
  match containerGroupRef s with
  | Some g => set_containerGroupRef None (removeAndDisposeGroup s g)
  | None => s
  end.

Definition cleanupUnpackedAreaGroup (s : State) : State :=
  match unpackedAreaGroupRef s with
  | Some g => set_unpackedAreaGroupRef None (removeAndDisposeGroup s g)
  | None => s
  end.

Definition resetControlsTarget (s : State) : State :=
  match controlsRef s with
  | Some c =>
      set_controlsRef (Some (mkControls origin (enableRotate c) (enablePan c))) s
  | None => s
  end.

(** The final sweep: every object of the scene carrying one of the flags is
    removed from its parent and its own geometry and material disposed of. *)
Definition sweepFlagged (s : State) : State :=
  match sceneRef s with
  | Some sc =>
      let toRemove := filter (fun c => flagged (o_userData c)) (traverse_all sc) in
      dispose (flat_map resources toRemove)
        (set_sceneRef (Some (detach_all (fun _ u => flagged u) sc)) s)
  | None => s
  end.

Definition cleanupScene (skipSceneReset : bool) (s : State) : State :=
  let s := set_animationFrameId None s in
  let s := cleanupSeparator s in
  let s := cleanupDashedLines s in
  let s := cleanupItemMeshes s in
  let s := cleanupUnpackedMeshes s in
  let s := cleanupContainerGroup s in
  let s := cleanupUnpackedAreaGroup s in
  let s := resetControlsTarget s in
  let s := if skipSceneReset then s else sweepFlagged s in
  set_isRenderingRef false s.

(** *** Construction of the objects of one generation

    Every [new] takes the next identity; a constructor below receives the
    first identity [n] it may use and uses a fixed number of them. *)

Definition half (v : num) : num := (v / Fin 2)%num.

Definition newBoundary (n : nat) (boundaryMaterial : MaterialRes)
    (w h d : num) (pos : Point) : Obj :=
  mkObj (n + 1) LineSegments emptyUserData pos origin
    (Some (mkGeometry n (EdgesOfBox w h d))) (Some boundaryMaterial) [].

Definition newCornerSphere (n : nat) (pos : Point) : Obj :=
  mkObj (n + 2) Mesh emptyUserData pos origin
    (Some (mkGeometry n (SphereGeometry (Fin 0.15))))
    (Some (mkMaterial (n + 1) MeshBasicMaterial (Hex 0xff0000))) [].

Definition cornerPoints (containerWidth containerHeight containerDepth : num)
    : list Point :=
  [ mkPoint (Fin 0) (Fin 0) (Fin 0); mkPoint containerWidth (Fin 0) (Fin 0);
    mkPoint (Fin 0) containerHeight (Fin 0);
    mkPoint containerWidth containerHeight (Fin 0);
    mkPoint (Fin 0) (Fin 0) containerDepth;
    mkPoint containerWidth (Fin 0) containerDepth;
    mkPoint (Fin 0) containerHeight containerDepth;
    mkPoint containerWidth containerHeight containerDepth ].

Fixpoint newCornerSpheres (n : nat) (ps : list Point) : list Obj :=
  match ps with
  | [] => []
  | p :: ps => newCornerSphere n p :: newCornerSpheres (n + 3) ps
  end.

Definition containerGroupSize : nat := 44.

Definition newContainerGroup (n : nat)
    (containerWidth containerHeight containerDepth : num) : Obj :=
  let '(cw, ch, cd) := (containerWidth, containerHeight, containerDepth) in
  let centre := mkPoint (half cw) (half ch) (half cd) in
  let containerGeometry := mkGeometry (n + 1) (BoxGeometry cw ch cd) in
  let containerMaterial := mkMaterial (n + 2) MeshPhongMaterial (Hex 0x3B82F6) in
  let containerMesh :=
    mkObj (n + 3) Mesh flag_isContainer centre origin
      (Some containerGeometry) (Some containerMaterial) [] in
  let edges := mkGeometry (n + 4) (EdgesOfBox cw ch cd) in
  let lineMaterial := mkMaterial (n + 5) LineBasicMaterial (Hex 0x1e40af) in
  let wireframe :=
    mkObj (n + 6) LineSegments emptyUserData centre origin
      (Some edges) (Some lineMaterial) [] in
  let boundaryMaterial := mkMaterial (n + 7) LineBasicMaterial (Hex 0xff0000) in
  let thin := Fin 0.01 in
  let bottomBoundary :=
    newBoundary (n + 8) boundaryMaterial cw thin cd
      (mkPoint (half cw) (Fin 0) (half cd)) in
  let topBoundary :=
    newBoundary (n + 10) boundaryMaterial cw thin cd
      (mkPoint (half cw) ch (half cd)) in
  let leftBoundary :=
    newBoundary (n + 12) boundaryMaterial thin ch cd
      (mkPoint (Fin 0) (half ch) (half cd)) in
  let rightBoundary :=
    newBoundary (n + 14) boundaryMaterial thin ch cd
      (mkPoint cw (half ch) (half cd)) in
  let frontBoundary :=
    newBoundary (n + 16) boundaryMaterial cw ch thin
      (mkPoint (half cw) (half ch) (Fin 0)) in
  let backBoundary :=
    newBoundary (n + 18) boundaryMaterial cw ch thin
      (mkPoint (half cw) (half ch) cd) in
  mkObj n Group emptyUserData origin origin None None
    ([containerMesh; wireframe; bottomBoundary; topBoundary; leftBoundary;
      rightBoundary; frontBoundary; backBoundary]
     ++ newCornerSpheres (n + 20) (cornerPoints cw ch cd)).

Definition sceneAdd (o : Obj) (s : State) : State :=
  set_sceneRef (option_map (fun sc => sc ++ [o]) (sceneRef s)) s.

Definition setEmissive (mid : nat) (e : Emissive) (s : State) : State :=
  set_emissive (fun k => if Nat.eqb k mid then e else emissive s k) s.

Definition packedUserData (p : Placed) : UserData :=
  mkUserData true false false false false
    (Some (p_name p)) (Some (p_name p))
    (Some (p_size p)) (Some (p_rotated p))
    (Some (p_color p)) (Some (p_color p))
    (Some (p_pos p)) (Some (p_pos p)) (Some (p_center p))
    false false (Some (p_rot p)) None.

Definition unpackedUserData (p : Placed) : UserData :=
  mkUserData false false true false false
    (Some (p_name p)) (Some (p_name p))
    (Some (p_size p)) None
    (Some (p_color p)) (Some (p_color p))
    (Some (p_pos p)) (Some (p_pos p)) (Some (p_center p))
    false true None (Some (p_reason p)).

Definition itemMeshSize : nat := 6.

(** One item mesh with its outline [line2] as only child. *)
Definition newItemMesh (n : nat) (u : UserData) (rot : Point) (edgeColor : N)
    (p : Placed) : Obj :=
  let '(mkDims width height depth) := p_size p in
  let geometry := mkGeometry n (BoxGeometry width height depth) in
  let material := mkMaterial (n + 1) MeshPhongMaterial (Css (p_color p)) in
  let edges2 := mkGeometry (n + 3) (EdgesOfBox width height depth) in
  let line2 :=
    mkObj (n + 5) LineSegments emptyUserData origin origin (Some edges2)
      (Some (mkMaterial (n + 4) LineBasicMaterial (Hex edgeColor))) [] in
  mkObj (n + 2) Mesh u (p_center p) rot (Some geometry) (Some material) [line2].

(** Body of [items.forEach((item, index) => { try { ... } catch { } })]. *)
Definition createPackedItem (containerWidth containerHeight containerDepth : num)
    (s : State) (index : nat) (item : option Item) : State :=
  match placePackedItem containerWidth containerHeight containerDepth index item with
  | Created p =>
      let n := next_id s in
      let mesh := newItemMesh n (packedUserData p) (p_rot p) 0x000000 p in
      let s := set_next_id (n + itemMeshSize) s in
      let s := setEmissive (n + 1) (mkEmissive 0x222222 (Fin 0.1)) s in
      match sceneRef s with
      | Some _ => set_itemMeshesRef (itemMeshesRef s ++ [mesh]) (sceneAdd mesh s)
      | None => s                 (* [add] throws on null; caught *)
      end
  | Skipped | Caught => s
  end.

Definition createUnpackedItem (containerWidth containerHeight containerDepth : num)
    (s : State) (index : nat) (item : option Item) : State :=
  match placeUnpackedItem containerWidth containerHeight containerDepth index item with
  | Created p =>
      let n := next_id s in
      let mesh := newItemMesh n (unpackedUserData p) origin 0x440000 p in
      let s := set_next_id (n + itemMeshSize) s in
      let s := setEmissive (n + 1) (mkEmissive 0x331111 (Fin 0.1)) s in
      match sceneRef s with
      | Some _ =>
          set_unpackedMeshesRef (unpackedMeshesRef s ++ [mesh]) (sceneAdd mesh s)
      | None => s
      end
  | Skipped | Caught => s
  end.

(** [l.forEach((item, index) => body)] with the state threaded through. *)
Fixpoint forEachIndexed {A : Type} (body : State -> nat -> A -> State)
    (index : nat) (l : list A) (s : State) : State :=
  match l with
  | [] => s
  | a :: l => forEachIndexed body (S index) l (body s index a)
  end.

(** *** createDashedBox *)

Definition dashedEdges (halfWidth halfHeight halfDepth : num) : list (Point * Point) :=
  let '(pw, ph, pd) := (halfWidth, halfHeight, halfDepth) in
  let '(mw, mh, md) := (nneg halfWidth, nneg halfHeight, nneg halfDepth) in
  [ (mkPoint mw mh md, mkPoint pw mh md); (mkPoint pw mh md, mkPoint pw mh pd);
    (mkPoint pw mh pd, mkPoint mw mh pd); (mkPoint mw mh pd, mkPoint mw mh md);
    (mkPoint mw ph md, mkPoint pw ph md); (mkPoint pw ph md, mkPoint pw ph pd);
    (mkPoint pw ph pd, mkPoint mw ph pd); (mkPoint mw ph pd, mkPoint mw ph md);
    (mkPoint mw mh md, mkPoint mw ph md); (mkPoint pw mh md, mkPoint pw ph md);
    (mkPoint pw mh pd, mkPoint pw ph pd); (mkPoint mw mh pd, mkPoint mw ph pd) ].

Definition dashedLineSize : nat := 3.

Definition newDashedLine (n : nat) (edge : Point * Point) (centre : Point)
    (color : N) : Obj :=
  mkObj (n + 2) Line flag_isDashedLine centre origin
    (Some (mkGeometry n (BufferGeometry [fst edge; snd edge])))
    (Some (mkMaterial (n + 1) LineDashedMaterial (Hex color))) [].

(** [group.add(o)] for the holding-area group held by the ref. *)
Definition groupAdd (g : Obj) (o : Obj) (s : State) : State :=
  set_unpackedAreaGroupRef (Some (add_children (o_id g) [o] g))
    (set_sceneRef (option_map (map (add_children (o_id g) [o])) (sceneRef s)) s).

Definition createDashedEdge (centre : Point) (color : N) (s : State)
    (edge : Point * Point) : State :=
  let n := next_id s in
  let line := newDashedLine n edge centre color in
  let s := set_next_id (n + dashedLineSize) s in
  let s := set_dashedLinesRef (dashedLinesRef s ++ [line]) s in
  match unpackedAreaGroupRef s with
  | Some g => groupAdd g line s
  | None => sceneAdd line s
  end.

Definition createDashedBox (width height depth centerX centerY centerZ : num)
    (color : N) (s : State) : State :=
  if negb (truthy width) || negb (truthy height) || negb (truthy depth) then s
  else
    fold_left (createDashedEdge (mkPoint centerX centerY centerZ) color)
      (dashedEdges (half width) (half height) (half depth)) s.

(** *** The visualisation-creation effect *)

Definition newUnpackedAreaMesh (n : nat) (containerWidth containerHeight
    containerDepth : num) : Obj :=
  mkObj (n + 2) Mesh flag_isUnpackedArea
    (mkPoint (unpackedAreaX containerWidth)
       (half (unpackedAreaHeight containerHeight))
       (half (unpackedAreaDepth containerDepth)))
    origin
    (Some (mkGeometry n
       (BoxGeometry unpackedAreaWidth (unpackedAreaHeight containerHeight)
          (unpackedAreaDepth containerDepth))))
    (Some (mkMaterial (n + 1) MeshPhongMaterial (Hex 0xef4444))) [].

Definition newSeparatorLine (n : nat) (containerWidth containerHeight : num) : Obj :=
  mkObj (n + 2) Line emptyUserData origin origin
    (Some (mkGeometry n
       (BufferGeometry
          [ mkPoint (containerWidth + Fin 7.5) (Fin 0) (Fin 0);
            mkPoint (containerWidth + Fin 7.5) (containerHeight + Fin 2) (Fin 0) ])))
    (Some (mkMaterial (n + 1) LineDashedMaterial (Hex 0x94a3b8))) [].

Definition createUnpackedArea (containerWidth containerHeight containerDepth : num)
    (unpackedItems : ItemList) (s : State) : State :=
  (* unpackedAreaGroupRef.current = new THREE.Group() *)
  let n := next_id s in
  let group := mkObj n Group emptyUserData origin origin None None [] in
  let s := set_unpackedAreaGroupRef (Some group) (set_next_id (n + 1) s) in
  (* the translucent volume of the area *)
  let areaMesh :=
    newUnpackedAreaMesh (next_id s) containerWidth containerHeight containerDepth in
  let s := groupAdd group areaMesh (set_next_id (next_id s + 3) s) in
  let s := createDashedBox unpackedAreaWidth (unpackedAreaHeight containerHeight)
             (unpackedAreaDepth containerDepth) (unpackedAreaX containerWidth)
             (half (unpackedAreaHeight containerHeight))
             (half (unpackedAreaDepth containerDepth)) 0xef4444 s in
  let s := match unpackedAreaGroupRef s with
           | Some g => sceneAdd g s
           | None => s
           end in
  let s := forEachIndexed
             (createUnpackedItem containerWidth containerHeight containerDepth)
             0 unpackedItems s in
  (* the separator between the container and the holding area *)
  let separatorLine := newSeparatorLine (next_id s) containerWidth containerHeight in
  let s := set_next_id (next_id s + 3) s in
  set_separatorLineRef (Some separatorLine) (sceneAdd separatorLine s).

Definition efficiencyOf (r : PackingResult) : num :=
  match statistics r with
  | Some st =>
      nor (space_utilization st)
        (nor (packing_efficiency st) (nor (efficiency r) (Fin 0)))
  | None => nor (efficiency r) (Fin 0)
  end.

(** The effect run for a new [packingResult]: [rebuild] of the
    specification. *)
Definition rebuild (packingResult : option PackingResult) (s : State) : State :=
  match packingResult, sceneRef s, isInitialized s with
  | Some r, Some _, true =>
      let s := cleanupScene false s in
      let s := set_unpackedMeshesRef [] (set_itemMeshesRef [] s) in
      match containerData r with
      | None => set_debugInfo NoContainerData s
      | Some c =>
          let containerWidth := containerWidthOf c in
          let containerHeight := containerHeightOf c in
          let containerDepth := containerDepthOf c in
          let unpackedItems := unpackedItemsOf r in
          (* the container *)
          let group :=
            newContainerGroup (next_id s) containerWidth containerHeight
              containerDepth in
          let s := set_next_id (next_id s + containerGroupSize) s in
          let s := sceneAdd group (set_containerGroupRef (Some group) s) in
          (* the packed items *)
          let items := packedItemsOf r in
          let s := forEachIndexed
                     (createPackedItem containerWidth containerHeight containerDepth)
                     0 items s in
          (* the holding area and the unpacked items *)
          let s := match unpackedItems with
                   | [] => s
                   | _ :: _ =>
                       createUnpackedArea containerWidth containerHeight
                         containerDepth unpackedItems s
                   end in
          set_debugInfo
            (Summary (List.length items) (List.length unpackedItems) (efficiencyOf r)) s
      end
  | _, _, _ => s
  end.

(** *** Initialisation: the scene before the first document *)

Definition newLight (n : nat) (pos : Point) : Obj :=
  mkObj n Light emptyUserData pos origin None None [].

Definition initThreeJS : State :=
  let scene :=
    [ newLight 0 origin;
      newLight 1 (mkPoint (Fin 20) (Fin 30) (Fin 20));
      newLight 2 (mkPoint (Fin (-20)) (Fin 20) (Fin (-30)));
      newLight 3 (mkPoint (Fin (-10)) (Fin 0) (Fin (-30)));
      mkObj 6 GridHelper emptyUserData origin origin
        (Some (mkGeometry 4 (BufferGeometry [])))
        (Some (mkMaterial 5 LineBasicMaterial (Hex 0x94a3b8))) [] ] in
  let lookAt := mkPoint (Fin 8.5) (Fin 4) (Fin 5) in
  mkState 7 (Some scene)
    (Some (mkCamera (mkPoint (Fin 20) (Fin 15) (Fin 20)) lookAt))
    (Some (mkControls lookAt true true))
    true [] [] None None None []
    (fun _ => mkEmissive 0 (Fin 0)) [] None false None DebugEmpty View3D true.

(** *** The camera view-mode effect *)

Definition cameraEffect (packingResult : option PackingResult) (s : State) : State :=
  match cameraRef s, controlsRef s, packingResult with
  | Some camera, Some controls, Some r =>
      let containerData := containerData r in
      let field (f : Container -> num) :=
        match containerData with Some c => f c | None => NaN end in
      let containerWidth := nor (field c_width) (Fin 17) in
      let containerHeight := nor (field c_height) (Fin 8) in
      let containerDepth := nor (field c_depth) (Fin 10) in
      let hasUnpackedItems :=
        match unpackedItemsOf r with [] => false | _ :: _ => true end in
      let containerCenterX := (containerWidth / Fin 2)%num in
      let containerCenterY := (containerHeight / Fin 2)%num in
      let containerCenterZ := (containerDepth / Fin 2)%num in
      let targetX :=
        if hasUnpackedItems && showUnpackedArea s
        then ((containerWidth + Fin 30 + Fin 15) / Fin 2)%num
        else containerCenterX in
      let targetY := containerCenterY in
      let targetZ := containerCenterZ in
      let '(cameraPos, rotate) :=
        match viewMode s with
        | Top => (mkPoint targetX (Fin 50) targetZ, false)
        | Front => (mkPoint targetX targetY (Fin 50), false)
        | Side => (mkPoint (Fin 50) targetY targetZ, false)
        | View3D =>
            (if hasUnpackedItems && showUnpackedArea s
             then mkPoint (targetX + Fin 15) (containerHeight * Fin 1.8)
                    (containerDepth * Fin 1.8)
             else mkPoint (containerWidth * Fin 0.8) (containerHeight * Fin 1.2)
                    (containerDepth * Fin 1.2),
             true)
        end in
      let targetPoint := mkPoint targetX targetY targetZ in
      set_cameraRef (Some (mkCamera cameraPos targetPoint))
        (set_controlsRef (Some (mkControls targetPoint rotate true)) s)
  | _, _, _ => s
  end.

(** [handleViewModeChange(mode)] followed by the effect it triggers. *)
Definition handleViewModeChange (packingResult : option PackingResult)
    (mode : ViewMode) (s : State) : State :=
  cameraEffect packingResult (set_viewMode mode s).

(** *** Hover picking *)

(** One intersection reported by the raycaster. *)
Record Intersection := mkIntersection {
  distance : Q;
  object : Obj
}.

(** [intersects.sort(ascSort)]: stable, ascending in distance. *)
Fixpoint insertByDistance (h : Intersection) (l : list Intersection)
    : list Intersection :=
  match l with
  | [] => [h]
  | h' :: l' =>
      if Qle_bool (distance h) (distance h') then h :: l
      else h' :: insertByDistance h l'
  end.

Fixpoint sortByDistance (l : list Intersection) : list Intersection :=
  match l with
  | [] => []
  | h :: l' => insertByDistance h (sortByDistance l')
  end.

(** [raycaster.intersectObjects(objects)] for the ray through the pointer:
    [ray o] lists the distances at which the ray meets the geometry of
    object [o]; the intersections with the listed objects are returned,
    nearest first. *)
Definition intersectObjects (ray : Obj -> list Q) (objects : list Obj)
    : list Intersection :=
  sortByDistance
    (flat_map (fun o => map (fun d => mkIntersection d o) (ray o)) objects).

Definition point_or (a : option Point) (b : Point) : Point :=
  match a with Some p => p | None => b end.

Definition hoverOf (userData : UserData) : Hover :=
  mkHover
    (str_or (ud_itemName userData) (str_or (ud_name userData) "Unknown Item"))
    (match ud_dimensions userData with
     | Some d => d
     | None => mkDims (Fin 0) (Fin 0) (Fin 0)
     end)
    (str_or (ud_originalColor userData) (str_or (ud_color userData) "#cccccc"))
    (point_or (ud_originalPosition userData) origin)
    (ud_isOutOfBounds userData)
    (ud_isUnpacked userData)
    (point_or (ud_rotation userData) origin)
    (str_or (ud_reason userData) "").

Definition highlightOn : Emissive := mkEmissive 0x444444 (Fin 0.5).
Definition highlightOff : Emissive := mkEmissive 0x000000 (Fin 0).

(** [allItems.forEach(obj => { if (obj.material) obj.material.emissive = ... })] *)
Definition paint (choose : Obj -> Emissive) (allItems : list Obj) (s : State) : State :=
  fold_left
    (fun s obj =>
       match o_material obj with
       | Some m => setEmissive (m_id m) (choose obj) s
       | None => s
       end)
    allItems s.

Definition handleMouseMove (ray : Obj -> list Q) (s : State) : State :=
  match sceneRef s, cameraRef s with
  | Some _, Some _ =>
      let allItems := itemMeshesRef s ++ unpackedMeshesRef s in
      let intersects := intersectObjects ray allItems in
      match intersects with
      | first :: _ =>
          let item := object first in
          let s := set_hoveredItem (Some (hoverOf (o_userData item))) s in
          paint (fun obj =>
                   if Nat.eqb (o_id obj) (o_id item) then highlightOn
                   else highlightOff)
            allItems s
      | [] =>
          paint (fun _ => highlightOff) allItems (set_hoveredItem None s)
      end
  | _, _ => s
  end.

End Scene.

(** ** Specification-side definitions

    The rotation transform as the specification words it, to be compared
    with [getRotatedDimensions]: every angle is normalised modulo 360 into
    [0, 360); an axis swaps when its normalised angle is less than one
    degree away from 90 or from 270; the three decisions are applied to the
    running triple in the order Z, Y, X. *)

Module RotationSpec.

Definition Qfloormod (x y : Q) : Q := x - y * inject_Z (Qfloor (x / y)).

Definition normalize360 (angle : num) : num :=
  match angle with
  | Fin q => Fin (Qfloormod q 360)
  | _ => NaN
  end.

Definition near (a target : num) : bool := nlt (nabs (a - target)) (Fin 1).

Definition swaps (angle : num) : bool :=
  let a := normalize360 angle in near a (Fin 90) || near a (Fin 270).

Definition triple : Type := (num * num * num)%type.

(** A quarter turn about Z exchanges width and height, about Y width and
    depth, about X height and depth. *)
Definition swapZ (t : triple) : triple := let '(w, h, d) := t in (h, w, d).
Definition swapY (t : triple) : triple := let '(w, h, d) := t in (d, h, w).
Definition swapX (t : triple) : triple := let '(w, h, d) := t in (w, d, h).

Definition effectiveBounds (w h d rotX rotY rotZ : num) : triple :=
  let t := (w, h, d) in
  let t := if swaps rotZ then swapZ t else t in
  let t := if swaps rotY then swapY t else t in
  let t := if swaps rotX then swapX t else t in
  t.

End RotationSpec.

(** ** Observations on a state

    What the properties below speak about: the objects of one generation in
    closed form, the graph-related part of a state, resource counts, item
    centres, and identities forgotten. *)

Module Observations.

Import Geometry Rotation Document Placement Scene.

(** The meshes that a [forEach] over [items] creates, given the first free
    identity [n] and the index of the first item. *)
Fixpoint genItemMeshes (place : nat -> option Item -> outcome Placed)
    (mk : nat -> Placed -> Obj) (n index : nat) (items : ItemList) : list Obj :=
  match items with
  | [] => []
  | item :: rest =>
      match place index item with
      | Created p =>
          mk n p :: genItemMeshes place mk (n + itemMeshSize) (S index) rest
      | Skipped | Caught => genItemMeshes place mk n (S index) rest
      end
  end.

Definition mkPackedMesh (n : nat) (p : Placed) : Obj :=
  newItemMesh n (packedUserData p) (p_rot p) 0x000000 p.

Definition mkUnpackedMesh (n : nat) (p : Placed) : Obj :=
  newItemMesh n (unpackedUserData p) origin 0x440000 p.

Definition genPacked (cw ch cd : num) (n : nat) (items : ItemList) : list Obj :=
  genItemMeshes (placePackedItem cw ch cd) mkPackedMesh n 0 items.

Definition genUnpacked (cw ch cd : num) (n : nat) (items : ItemList) : list Obj :=
  genItemMeshes (placeUnpackedItem cw ch cd) mkUnpackedMesh n 0 items.

Fixpoint genDashedLines (n : nat) (centre : Point) (color : N)
    (edges : list (Point * Point)) : list Obj :=
  match edges with
  | [] => []
  | e :: rest =>
      newDashedLine n e centre color
      :: genDashedLines (n + dashedLineSize) centre color rest
  end.

(** The dashed lines of the holding area of a container. *)
Definition areaLines (cw ch cd : num) (n : nat) : list Obj :=
  let width := unpackedAreaWidth in
  let height := unpackedAreaHeight ch in
  let depth := unpackedAreaDepth cd in
  if negb (truthy width) || negb (truthy height) || negb (truthy depth) then []
  else genDashedLines n
         (mkPoint (unpackedAreaX cw) (half height) (half depth)) 0xef4444
         (dashedEdges (half width) (half height) (half depth)).

Definition areaGroup (cw ch cd : num) (n : nat) : Obj :=
  mkObj n Group emptyUserData origin origin None None
    (newUnpackedAreaMesh (n + 1) cw ch cd :: areaLines cw ch cd (n + 4)).

(** The graph-related part of a state. *)
Record Graph := mkGraph {
  g_next : nat;
  g_scene : option (list Obj);
  g_items : list Obj;
  g_unpacked : list Obj;
  g_container : option Obj;
  g_area : option Obj;
  g_separator : option Obj;
  g_dashed : list Obj
}.

Definition graphOf (s : State) : Graph :=
  mkGraph (next_id s) (sceneRef s) (itemMeshesRef s) (unpackedMeshesRef s)
    (containerGroupRef s) (unpackedAreaGroupRef s) (separatorLineRef s)
    (dashedLinesRef s).

(** The graph after the visualisation-creation effect, in closed form:
    [base] is what [cleanupScene] left in the scene and [n] the first free
    identity. *)
Definition genGraph (base : list Obj) (cw ch cd : num) (n : nat)
    (items unpacked : ItemList) : Graph :=
  let G := newContainerGroup n cw ch cd in
  let ms := genPacked cw ch cd (n + containerGroupSize) items in
  let n1 := (n + containerGroupSize + itemMeshSize * List.length ms)%nat in
  match unpacked with
  | [] => mkGraph n1 (Some (base ++ G :: ms)) ms [] (Some G) None None []
  | _ :: _ =>
      let lines := areaLines cw ch cd (n1 + 4) in
      let A := areaGroup cw ch cd n1 in
      let n2 := (n1 + 4 + dashedLineSize * List.length lines)%nat in
      let us := genUnpacked cw ch cd n2 unpacked in
      let n3 := (n2 + itemMeshSize * List.length us)%nat in
      let sep := newSeparatorLine n3 cw ch in
      mkGraph (n3 + 3) (Some (base ++ G :: ms ++ A :: us ++ [sep])) ms us
        (Some G) (Some A) (Some sep) lines
  end.

(** Identities of the objects tracked by the refs. *)
Definition opt_id (o : option Obj) : list nat :=
  match o with Some o => [o_id o] | None => [] end.

Definition trackedIds (s : State) : list nat :=
  opt_id (separatorLineRef s) ++ map o_id (dashedLinesRef s)
  ++ map o_id (itemMeshesRef s) ++ map o_id (unpackedMeshesRef s)
  ++ opt_id (containerGroupRef s) ++ opt_id (unpackedAreaGroupRef s).

Definition mem (l : list nat) (i : nat) : bool := existsb (Nat.eqb i) l.

(** What [cleanupScene] takes out of the graph: the tracked objects and
    every object carrying one of the five flags. *)
Definition cleanupBad (s : State) : nat -> UserData -> bool :=
  fun i u => mem (trackedIds s) i || flagged u.

(** Identities held by each ref, with the allocation counter. *)
Definition refIds (s : State)
    : nat * list nat * list nat * list nat * list nat * list nat * list nat :=
  (next_id s, opt_id (separatorLineRef s), map o_id (dashedLinesRef s),
   map o_id (itemMeshesRef s), map o_id (unpackedMeshesRef s),
   opt_id (containerGroupRef s), opt_id (unpackedAreaGroupRef s)).

(** [tracks B r s0 s]: [s] is [s0] with the objects selected by [B] taken
    out of the graph, and its refs hold the identities [r]. *)
Definition tracks (B : nat -> UserData -> bool)
    (r : nat * list nat * list nat * list nat * list nat * list nat * list nat)
    (s0 s : State) : Prop :=
  sceneRef s = option_map (detach_all B) (sceneRef s0) /\ refIds s = r.

(** Identities forgotten. *)
Definition eraseGeometry (g : GeometryRes) : GeometryRes :=
  mkGeometry 0 (g_kind g).

Definition eraseMaterial (m : MaterialRes) : MaterialRes :=
  mkMaterial 0 (m_kind m) (m_color m).

Fixpoint erase (o : Obj) : Obj :=
  match o with
  | mkObj _ k u p r g m ch =>
      mkObj 0 k u p r (option_map eraseGeometry g) (option_map eraseMaterial m)
        (map erase ch)
  end.

(** Resource counts of the live scene: objects in the graph, geometries and
    materials attached to them, and the sizes of the tracking refs. *)
Record ResourceCounts := mkResourceCounts {
  n_objects : nat;
  n_geometries : nat;
  n_materials : nat;
  n_itemMeshes : nat;
  n_unpackedMeshes : nat;
  n_dashedLines : nat;
  n_groups : nat;
  n_separators : nat
}.

Definition has {A : Type} (o : option A) : nat :=
  match o with Some _ => 1%nat | None => 0%nat end.

Definition sceneObjects (s : State) : list Obj :=
  match sceneRef s with Some sc => traverse_all sc | None => [] end.

Definition countWith {A : Type} (f : Obj -> option A) (l : list Obj) : nat :=
  List.length (filter (fun o => match f o with Some _ => true | None => false end) l).

Definition resourceCounts (s : State) : ResourceCounts :=
  mkResourceCounts
    (List.length (sceneObjects s))
    (countWith o_geometry (sceneObjects s))
    (countWith o_material (sceneObjects s))
    (List.length (itemMeshesRef s))
    (List.length (unpackedMeshesRef s))
    (List.length (dashedLinesRef s))
    (has (containerGroupRef s) + has (unpackedAreaGroupRef s))
    (has (separatorLineRef s)).

(** Centres of the item meshes, packed then unpacked. *)
Definition itemCenters (s : State) : list Point :=
  map o_position (itemMeshesRef s ++ unpackedMeshesRef s).

(** Every identity in the graph and in the refs is older than the next
    allocation. *)
Definition idsBelow (n : nat) (l : list Obj) : Prop :=
  Forall (fun o => o_id o < n)%nat (traverse_all l).

Definition freshIds (s : State) : Prop :=
  match sceneRef s with Some sc => idsBelow (next_id s) sc | None => True end.

End Observations.

(* ================================================================= *)
(** * Part II: properties *)
(* ================================================================= *)

(** ** Facts about numbers *)

Section NumFacts.

Lemma Qlt_bool_iff (x y : Q) : Qlt_bool x y = true <-> x < y.
Proof.
  unfold Qlt_bool. rewrite negb_true_iff.
  split; intro H.
  - apply Qnot_le_lt. intro L. apply Qle_bool_iff in L. congruence.
  - destruct (Qle_bool y x) eqn:E; [|reflexivity].
    apply Qle_bool_iff in E. exfalso. apply (Qlt_not_le _ _ H E).
Qed.

Lemma Qeq_bool_false_iff (x y : Q) : Qeq_bool x y = false <-> ~ x == y.
Proof.
  split.
  - intros E H. apply Qeq_bool_iff in H. congruence.
  - intro H. destruct (Qeq_bool x y) eqn:E; [|reflexivity].
    apply Qeq_bool_iff in E. contradiction.
Qed.


Lemma num_eq_sym (a b : num) : a =n= b -> b =n= a.
Proof. destruct a, b; simpl; auto with qarith. Qed.

Lemma num_eq_trans (a b c : num) : a =n= b -> b =n= c -> a =n= c.
Proof.
  destruct a, b, c; simpl; try tauto. intros H1 H2. now rewrite H1.
Qed.



(** Truncation towards zero against the floor. *)
Lemma Qtrunc_nonneg (x : Q) : 0 <= x -> Qtrunc x = Qfloor x.
Proof.
  destruct x as [n d]. unfold Qle, Qtrunc, Qfloor. simpl. intro H.
  apply Z.quot_div_nonneg; lia.
Qed.

Lemma Qtrunc_nonpos (x : Q) : x <= 0 -> Qtrunc x = (- Qfloor (- x))%Z.
Proof.
  destruct x as [n d]. unfold Qle, Qtrunc, Qfloor. simpl. intro H.
  rewrite <- (Z.opp_involutive n) at 1.
  rewrite Z.quot_opp_l by lia.
  f_equal. apply Z.quot_div_nonneg; lia.
Qed.

Lemma Qtrunc_floor (x : Q) :
  Qtrunc x = Qfloor x \/ (Qtrunc x = (Qfloor x + 1)%Z /\ x < 0).
Proof.
  destruct (Qlt_le_dec x 0) as [Hneg|Hpos].
  - pose proof (Qfloor_le x) as F1. pose proof (Qlt_floor x) as F2.
    pose proof (Qfloor_le (- x)) as G1. pose proof (Qlt_floor (- x)) as G2.
    rewrite Qtrunc_nonpos by lra.
    set (f := Qfloor x) in *. set (g := Qfloor (- x)) in *.
    rewrite inject_Z_plus in F2, G2.
    assert (L1 : (f <= - g)%Z).
    { rewrite Zle_Qle, inject_Z_opp. lra. }
    assert (L2 : (- g < f + 2)%Z).
    { rewrite Zlt_Qlt, inject_Z_plus, inject_Z_opp.
      change (inject_Z 2) with 2. change (inject_Z 1) with 1 in *. lra. }
    destruct (Z.eq_dec (- g) f) as [E|E]; [left; exact E|right].
    split; [lia|exact Hneg].
  - left. apply Qtrunc_nonneg. exact Hpos.
Qed.

Lemma Qfloormod_range (q : Q) :
  0 <= RotationSpec.Qfloormod q 360 < 360.
Proof.
  unfold RotationSpec.Qfloormod.
  pose proof (Qfloor_le (q / 360)) as F1. pose proof (Qlt_floor (q / 360)) as F2.
  rewrite inject_Z_plus in F2. change (inject_Z 1) with 1 in F2.
  set (f := inject_Z (Qfloor (q / 360))) in *.
  assert (E : q == 360 * (q / 360)) by field.
  set (x := q / 360) in *. lra.
Qed.

(** The remainder of the language and the mathematical residue differ by
    nothing, or by one full turn when the angle is negative. *)
Lemma Qfmod_floormod (q : Q) :
  (Qfmod q 360 == RotationSpec.Qfloormod q 360) \/
  (Qfmod q 360 == RotationSpec.Qfloormod q 360 - 360 /\ Qfmod q 360 < 0).
Proof.
  unfold Qfmod, RotationSpec.Qfloormod.
  destruct (Qtrunc_floor (q / 360)) as [E|[E Hneg]]; rewrite E.
  - left. reflexivity.
  - right. rewrite inject_Z_plus. change (inject_Z 1) with 1.
    split; [ring|].
    pose proof (Qfloor_le (q / 360)) as F1. pose proof (Qlt_floor (q / 360)) as F2.
    rewrite inject_Z_plus in F2. change (inject_Z 1) with 1 in F2.
    set (f := inject_Z (Qfloor (q / 360))) in *.
    assert (Eq : q == 360 * (q / 360)) by field.
    set (x := q / 360) in *. lra.
Qed.

End NumFacts.

(** ** utils/geometry.js *)

Section GeometryFacts.

Import Geometry.



End GeometryFacts.

(** ** The rotation transform *)

Section RotationFacts.

Import Geometry Rotation.

Lemma band_fin (a t : Q) :
  nlt (nabs (Fin a - Fin t)) (Fin 1) = true <-> t - 1 < a < t + 1.
Proof.
  change (nlt (nabs (Fin a - Fin t)) (Fin 1)) with (Qlt_bool (Qabs (a + - t)) 1).
  rewrite Qlt_bool_iff, Qabs_Qlt_condition. split; intros [H1 H2]; split; lra.
Qed.

Lemma quarter_turn_fin (a : Q) :
  quarter_turn (Fin a) = true <-> (89 < a < 91 \/ 269 < a < 271).
Proof.
  unfold quarter_turn. rewrite orb_true_iff, !band_fin.
  split; (intros [[H1 H2]|[H1 H2]]; [left|right]; split; lra).
Qed.

Lemma swaps_fin (q : Q) :
  RotationSpec.swaps (Fin q) = true <->
  (89 < RotationSpec.Qfloormod q 360 < 91 \/ 269 < RotationSpec.Qfloormod q 360 < 271).
Proof.
  unfold RotationSpec.swaps, RotationSpec.near, RotationSpec.normalize360.
  rewrite orb_true_iff, !band_fin.
  split; (intros [[H1 H2]|[H1 H2]]; [left|right]; split; lra).
Qed.

(** The test of the code on [|angle % 360|] decides the same swaps as the
    specification's test on the angle modulo 360. *)
Lemma quarter_turn_swaps (angle : num) :
  quarter_turn (nabs (nrem angle (Fin 360))) = RotationSpec.swaps angle.
Proof.
  destruct angle as [q| | |]; try reflexivity.
  apply eq_iff_eq_true.
  change (nabs (nrem (Fin q) (Fin 360))) with (Fin (Qabs (Qfmod q 360))).
  rewrite quarter_turn_fin, swaps_fin.
  pose proof (Qfloormod_range q) as [R0 R1].
  destruct (Qfmod_floormod q) as [E|[E Hneg]].
  - rewrite (Qabs_pos (Qfmod q 360)) by lra. rewrite E. tauto.
  - rewrite (Qabs_neg (Qfmod q 360)) by lra. rewrite E.
    split; (intros [[H1 H2]|[H1 H2]]; [right|left]; split; lra).
Qed.

(** C2: for every input the transform computes what the specification
    describes: each angle is reduced modulo 360, an axis swaps exactly when
    its reduced angle is less than one degree from 90 or 270, and the
    decisions are applied in the order Z, Y, X to the running triple; in
    particular a quarter turn about Z gives (h,w,d), about X gives (w,d,h),
    and no rotation gives (w,h,d). *)
Theorem getRotatedDimensions_refines_spec (w h d rotX rotY rotZ : num) :
  (let r := getRotatedDimensions w h d rotX rotY rotZ in
   (width r, height r, depth r) = RotationSpec.effectiveBounds w h d rotX rotY rotZ)
  /\ getRotatedDimensions w h d (Fin 0) (Fin 0) (Fin 90) = mkDims h w d
  /\ getRotatedDimensions w h d (Fin 90) (Fin 0) (Fin 0) = mkDims w d h
  /\ getRotatedDimensions w h d (Fin 0) (Fin 0) (Fin 0) = mkDims w h d.
Proof.
  split; [|repeat split; reflexivity].
  unfold getRotatedDimensions, RotationSpec.effectiveBounds.
  rewrite !quarter_turn_swaps.
  destruct (RotationSpec.swaps rotZ), (RotationSpec.swaps rotY),
           (RotationSpec.swaps rotX); reflexivity.
Qed.



End RotationFacts.

(** ** The scene graph *)

Section TreeFacts.

Import Geometry Scene Observations.

(** Induction on scene objects, with the hypothesis available for every
    child. *)
Lemma Obj_nested_ind (P : Obj -> Prop)
  (step : forall i k u p r g m ch, Forall P ch -> P (mkObj i k u p r g m ch)) :
  forall o, P o.
Proof.
  fix IH 1. intros [i k u p r g m ch]. apply step.
  induction ch as [|c ch IHch]; constructor; [apply IH | exact IHch].
Qed.

Lemma o_id_detach bad o : o_id (detach bad o) = o_id o.
Proof. destruct o; reflexivity. Qed.

Lemma o_userData_detach bad o : o_userData (detach bad o) = o_userData o.
Proof. destruct o; reflexivity. Qed.

Lemma filter_map_commute {A B : Type} (f : A -> B) (p : B -> bool) (q : A -> bool)
  (l : list A) :
  (forall a, p (f a) = q a) -> filter p (map f l) = map f (filter q l).
Proof.
  intro H. induction l as [|a l IH]; simpl; [reflexivity|].
  rewrite H. destruct (q a); simpl; now rewrite IH.
Qed.

Lemma filter_filter {A : Type} (p q : A -> bool) (l : list A) :
  filter p (filter q l) = filter (fun a => q a && p a) l.
Proof.
  induction l as [|a l IH]; simpl; [reflexivity|].
  destruct (q a); simpl; [destruct (p a)|]; now rewrite IH.
Qed.

Lemma map_ext_Forall {A B : Type} (f g : A -> B) (l : list A) :
  Forall (fun a => f a = g a) l -> map f l = map g l.
Proof. induction 1; simpl; congruence. Qed.

Lemma detach_ext b1 b2 :
  (forall i u, b1 i u = b2 i u) -> forall o, detach b1 o = detach b2 o.
Proof.
  intros E. induction o as [i k u p r g m ch IH] using Obj_nested_ind.
  simpl. f_equal.
  rewrite (map_ext_Forall _ _ _ IH).
  apply filter_ext. intro c. now rewrite E.
Qed.

Lemma detach_all_ext b1 b2 l :
  (forall i u, b1 i u = b2 i u) -> detach_all b1 l = detach_all b2 l.
Proof.
  intro E. unfold detach_all.
  rewrite (map_ext _ _ (detach_ext b1 b2 E)).
  apply filter_ext. intro c. now rewrite E.
Qed.

Lemma detach_children_compose b1 b2 ch :
  Forall (fun o => detach b2 (detach b1 o) = detach (fun i u => b1 i u || b2 i u) o) ch ->
  filter (fun c => negb (b2 (o_id c) (o_userData c)))
    (map (detach b2)
       (filter (fun c => negb (b1 (o_id c) (o_userData c))) (map (detach b1) ch)))
  = filter (fun c => negb (b1 (o_id c) (o_userData c) || b2 (o_id c) (o_userData c)))
      (map (detach (fun i u => b1 i u || b2 i u)) ch).
Proof.
  intro IH.
  rewrite <- (filter_map_commute (detach b2)
                (fun c => negb (b1 (o_id c) (o_userData c)))
                (fun c => negb (b1 (o_id c) (o_userData c)))).
  2:{ intro a. now rewrite o_id_detach, o_userData_detach. }
  rewrite filter_filter, map_map.
  rewrite (map_ext_Forall _ _ _ IH).
  apply filter_ext. intro c. now rewrite negb_orb.
Qed.

Lemma detach_compose b1 b2 o :
  detach b2 (detach b1 o) = detach (fun i u => b1 i u || b2 i u) o.
Proof.
  induction o as [i k u p r g m ch IH] using Obj_nested_ind.
  simpl. f_equal. now apply detach_children_compose.
Qed.

Lemma detach_all_compose b1 b2 l :
  detach_all b2 (detach_all b1 l) = detach_all (fun i u => b1 i u || b2 i u) l.
Proof.
  unfold detach_all. apply detach_children_compose.
  apply Forall_forall. intros o _. apply detach_compose.
Qed.

Lemma detach_all_app bad l1 l2 :
  detach_all bad (l1 ++ l2) = detach_all bad l1 ++ detach_all bad l2.
Proof. unfold detach_all. now rewrite map_app, filter_app. Qed.

Lemma traverse_all_app l1 l2 :
  traverse_all (l1 ++ l2) = traverse_all l1 ++ traverse_all l2.
Proof. unfold traverse_all. apply flat_map_app. Qed.

Lemma traverse_all_cons o l : traverse_all (o :: l) = traverse o ++ traverse_all l.
Proof. reflexivity. Qed.

Lemma traverse_eq o : traverse o = o :: traverse_all (o_children o).
Proof. destruct o; reflexivity. Qed.

Lemma filter_all {A : Type} (p : A -> bool) (l : list A) :
  Forall (fun a => p a = true) l -> filter p l = l.
Proof. induction 1; simpl; [reflexivity|]. rewrite H. now f_equal. Qed.

Lemma filter_none {A : Type} (p : A -> bool) (l : list A) :
  Forall (fun a => p a = false) l -> filter p l = [].
Proof. induction 1; simpl; [reflexivity|]. now rewrite H. Qed.

Lemma Forall_traverse_top (P : Obj -> Prop) l :
  Forall P (traverse_all l) -> Forall P l.
Proof.
  induction l as [|c l IH]; intro H; constructor.
  - rewrite traverse_all_cons, traverse_eq in H. now inversion H.
  - apply IH. rewrite traverse_all_cons in H. apply Forall_app in H. tauto.
Qed.

Lemma filter_keep_all bad l :
  Forall (fun c => bad (o_id c) (o_userData c) = false) l ->
  filter (fun c => negb (bad (o_id c) (o_userData c))) l = l.
Proof.
  intro H. apply filter_all. eapply Forall_impl; [|exact H].
  intros c Hc. simpl. now rewrite Hc.
Qed.

(** Nothing is removed from a graph none of whose objects is selected. *)
Lemma detach_id bad o :
  Forall (fun c => bad (o_id c) (o_userData c) = false) (traverse_all (o_children o)) ->
  detach bad o = o.
Proof.
  induction o as [i k u p r g m ch IH] using Obj_nested_ind.
  simpl. intro H. f_equal.
  assert (E : map (detach bad) ch = ch).
  { clear - IH H. induction IH as [|c ch Hc _ IHch]; simpl; [reflexivity|].
    rewrite traverse_all_cons, traverse_eq in H.
    inversion H as [|? ? _ H']; subst.
    apply Forall_app in H'. destruct H' as [H1 H2].
    f_equal; [apply Hc; exact H1 | apply IHch; exact H2]. }
  rewrite E. apply filter_keep_all. now apply Forall_traverse_top.
Qed.

Lemma detach_all_id bad l :
  Forall (fun c => bad (o_id c) (o_userData c) = false) (traverse_all l) ->
  detach_all bad l = l.
Proof.
  intro H. unfold detach_all.
  assert (E : map (detach bad) l = l).
  { induction l as [|c l IH]; simpl; [reflexivity|].
    rewrite traverse_all_cons, traverse_eq in H.
    inversion H as [|? ? _ H']; subst.
    apply Forall_app in H'. destruct H' as [H1 H2].
    f_equal; [apply detach_id; exact H1 | apply IH; exact H2]. }
  rewrite E. apply filter_keep_all. now apply Forall_traverse_top.
Qed.

(** Every top-level object selected: nothing is left. *)
Lemma detach_all_none bad l :
  Forall (fun c => bad (o_id c) (o_userData c) = true) l -> detach_all bad l = [].
Proof.
  intro H. unfold detach_all. apply filter_none.
  apply Forall_map. eapply Forall_impl; [|exact H].
  intros c Hc. simpl. now rewrite o_id_detach, o_userData_detach, Hc.
Qed.

(** What remains after a removal is not selected, and was there before. *)
Lemma In_traverse_all_head c ch a :
  In a (traverse c) -> In a (traverse_all (c :: ch)).
Proof. intro H. rewrite traverse_all_cons. apply in_or_app. now left. Qed.

Lemma In_traverse_all_tail c ch a :
  In a (traverse_all ch) -> In a (traverse_all (c :: ch)).
Proof. intro H. rewrite traverse_all_cons. apply in_or_app. now right. Qed.

Lemma traverse_detach_children bad ch :
  Forall (fun o => Forall (fun c => bad (o_id c) (o_userData c) = false /\
                   exists c', In c' (traverse_all (o_children o)) /\ o_id c' = o_id c
                              /\ o_userData c' = o_userData c)
         (traverse_all (o_children (detach bad o)))) ch ->
  Forall (fun c => bad (o_id c) (o_userData c) = false /\
                   exists c', In c' (traverse_all ch) /\ o_id c' = o_id c
                              /\ o_userData c' = o_userData c)
         (traverse_all (detach_all bad ch)).
Proof.
  induction 1 as [|c ch Hc _ IHch]; [constructor|].
  assert (Tail : Forall
            (fun c0 => bad (o_id c0) (o_userData c0) = false /\
               exists c', In c' (traverse_all (c :: ch)) /\ o_id c' = o_id c0
                          /\ o_userData c' = o_userData c0)
            (traverse_all (detach_all bad ch))).
  { eapply Forall_impl; [|exact IHch]. intros a [Ha [c' [Hin Hc']]].
    split; [exact Ha|]. exists c'. split; [|exact Hc'].
    now apply In_traverse_all_tail. }
  unfold detach_all in *. cbn [map filter].
  destruct (bad (o_id (detach bad c)) (o_userData (detach bad c))) eqn:E;
    cbn [negb]; [exact Tail|].
  rewrite traverse_all_cons. apply Forall_app. split; [|exact Tail].
  rewrite (traverse_eq (detach bad c)). constructor.
  - split; [exact E|]. exists c. split.
    + apply In_traverse_all_head. rewrite (traverse_eq c). now left.
    + now rewrite o_id_detach, o_userData_detach.
  - eapply Forall_impl; [|exact Hc]. intros a [Ha [c' [Hin Hc']]].
    split; [exact Ha|]. exists c'. split; [|exact Hc'].
    apply In_traverse_all_head. rewrite (traverse_eq c). now right.
Qed.

Lemma traverse_detach bad o :
  Forall (fun c => bad (o_id c) (o_userData c) = false /\
                   exists c', In c' (traverse_all (o_children o)) /\ o_id c' = o_id c
                              /\ o_userData c' = o_userData c)
         (traverse_all (o_children (detach bad o))).
Proof.
  induction o as [i k u p r g m ch IH] using Obj_nested_ind.
  exact (traverse_detach_children bad ch IH).
Qed.

Lemma traverse_detach_all bad l :
  Forall (fun c => bad (o_id c) (o_userData c) = false /\
                   exists c', In c' (traverse_all l) /\ o_id c' = o_id c
                              /\ o_userData c' = o_userData c)
         (traverse_all (detach_all bad l)).
Proof.
  apply traverse_detach_children. apply Forall_forall. intros o _.
  apply traverse_detach.
Qed.

End TreeFacts.

(** ** cleanupScene *)

Section CleanupFacts.

Import Geometry Scene Observations.

Lemma opt_id_detach bad (o : option Obj) :
  opt_id (option_map (detach bad) o) = opt_id o.
Proof. destruct o as [o|]; simpl; [now rewrite o_id_detach|reflexivity]. Qed.

Lemma mem_app l1 l2 i : mem (l1 ++ l2) i = mem l1 i || mem l2 i.
Proof. apply existsb_app. Qed.

Lemma removeAndDispose_graph s o :
  sceneRef (removeAndDispose s o) = option_map (detach_all (is_obj o)) (sceneRef s)
  /\ refIds (removeAndDispose s o) = refIds s.
Proof.
  split; [reflexivity|].
  unfold refIds, removeAndDispose, dispose, remove_from_graph. cbn.
  now rewrite !opt_id_detach.
Qed.

Lemma removeAndDisposeGroup_graph s g :
  sceneRef (removeAndDisposeGroup s g) = option_map (detach_all (is_obj g)) (sceneRef s)
  /\ refIds (removeAndDisposeGroup s g) = refIds s.
Proof.
  split; [reflexivity|].
  unfold refIds, removeAndDisposeGroup, dispose, remove_from_graph. cbn.
  now rewrite !opt_id_detach.
Qed.

Lemma option_map_detach_all_compose b1 b2 (sc : option (list Obj)) :
  option_map (detach_all b2) (option_map (detach_all b1) sc)
  = option_map (detach_all (fun i u => b1 i u || b2 i u)) sc.
Proof. destruct sc; simpl; [now rewrite detach_all_compose|reflexivity]. Qed.

Lemma option_map_detach_all_ext b1 b2 (sc : option (list Obj)) :
  (forall i u, b1 i u = b2 i u) ->
  option_map (detach_all b1) sc = option_map (detach_all b2) sc.
Proof. intro E. destruct sc; simpl; [now rewrite (detach_all_ext b1 b2)|reflexivity]. Qed.

Lemma option_map_detach_all_nothing (sc : option (list Obj)) :
  option_map (detach_all (fun _ _ => false)) sc = sc.
Proof.
  destruct sc as [sc|]; simpl; [|reflexivity]. f_equal.
  apply detach_all_id. apply Forall_forall. reflexivity.
Qed.

Lemma fold_removeAndDispose_graph l s :
  sceneRef (fold_left removeAndDispose l s)
  = option_map (detach_all (fun i _ => mem (map o_id l) i)) (sceneRef s)
  /\ refIds (fold_left removeAndDispose l s) = refIds s.
Proof.
  revert s. induction l as [|o l IH]; intro s; simpl.
  - split; [|reflexivity]. symmetry. apply option_map_detach_all_nothing.
  - destruct (IH (removeAndDispose s o)) as [IH1 IH2].
    destruct (removeAndDispose_graph s o) as [R1 R2].
    rewrite IH1, IH2, R1, R2. split; [|reflexivity].
    rewrite option_map_detach_all_compose.
    apply option_map_detach_all_ext. reflexivity.
Qed.


Lemma tracks_step B B' r r' s0 s s' :
  tracks B r s0 s ->
  sceneRef s' = option_map (detach_all B') (sceneRef s) ->
  refIds s' = r' ->
  tracks (fun i u => B i u || B' i u) r' s0 s'.
Proof.
  intros [H1 H2] Hs Hr. split; [|exact Hr].
  now rewrite Hs, H1, option_map_detach_all_compose.
Qed.

Lemma cleanupSeparator_tracks B n sep d i u c a s0 s :
  tracks B (n, sep, d, i, u, c, a) s0 s ->
  tracks (fun k ud => B k ud || mem sep k) (n, [], d, i, u, c, a) s0 (cleanupSeparator s).
Proof.
  intro T. pose proof T as [_ R]. unfold refIds in R. inversion R as [R']; subst.
  unfold cleanupSeparator.
  destruct (separatorLineRef s) as [l|] eqn:E.
  - destruct (removeAndDispose_graph s l) as [G1 G2].
    eapply tracks_step with (B' := fun k _ => mem (opt_id (Some l)) k) in T.
    + exact T.
    + cbn [sceneRef set_separatorLineRef]. rewrite G1.
      apply option_map_detach_all_ext. intros k ud. unfold is_obj, mem. simpl.
      now rewrite orb_false_r.
    + unfold refIds in *. cbn. now rewrite !opt_id_detach.
  - eapply tracks_step with (B' := fun k _ => mem [] k) in T.
    + exact T.
    + simpl. symmetry. apply option_map_detach_all_nothing.
    + unfold refIds. now rewrite E.
Qed.


Lemma cleanupDashedLines_tracks B n sep d i u c a s0 s :
  tracks B (n, sep, d, i, u, c, a) s0 s ->
  tracks (fun k ud => B k ud || mem d k) (n, sep, [], i, u, c, a) s0
    (cleanupDashedLines s).
Proof.
  intro T. pose proof T as [_ R]. unfold refIds in R. inversion R; subst.
  destruct (fold_removeAndDispose_graph (dashedLinesRef s) s) as [G1 G2].
  eapply tracks_step in T; [exact T| |].
  - unfold cleanupDashedLines. cbn [sceneRef set_dashedLinesRef]. exact G1.
  - unfold refIds in *. unfold cleanupDashedLines. cbn. inversion G2. congruence.
Qed.

Lemma cleanupItemMeshes_tracks B n sep d i u c a s0 s :
  tracks B (n, sep, d, i, u, c, a) s0 s ->
  tracks (fun k ud => B k ud || mem i k) (n, sep, d, [], u, c, a) s0
    (cleanupItemMeshes s).
Proof.
  intro T. pose proof T as [_ R]. unfold refIds in R. inversion R; subst.
  destruct (fold_removeAndDispose_graph (itemMeshesRef s) s) as [G1 G2].
  eapply tracks_step in T; [exact T| |].
  - unfold cleanupItemMeshes. cbn [sceneRef set_itemMeshesRef]. exact G1.
  - unfold refIds in *. unfold cleanupItemMeshes. cbn. inversion G2. congruence.
Qed.

Lemma cleanupUnpackedMeshes_tracks B n sep d i u c a s0 s :
  tracks B (n, sep, d, i, u, c, a) s0 s ->
  tracks (fun k ud => B k ud || mem u k) (n, sep, d, i, [], c, a) s0
    (cleanupUnpackedMeshes s).
Proof.
  intro T. pose proof T as [_ R]. unfold refIds in R. inversion R; subst.
  destruct (fold_removeAndDispose_graph (unpackedMeshesRef s) s) as [G1 G2].
  eapply tracks_step in T; [exact T| |].
  - unfold cleanupUnpackedMeshes. cbn [sceneRef set_unpackedMeshesRef]. exact G1.
  - unfold refIds in *. unfold cleanupUnpackedMeshes. cbn. inversion G2. congruence.
Qed.

Lemma cleanupContainerGroup_tracks B n sep d i u c a s0 s :
  tracks B (n, sep, d, i, u, c, a) s0 s ->
  tracks (fun k ud => B k ud || mem c k) (n, sep, d, i, u, [], a) s0
    (cleanupContainerGroup s).
Proof.
  intro T. pose proof T as [_ R]. unfold refIds in R. inversion R; subst.
  unfold cleanupContainerGroup.
  destruct (containerGroupRef s) as [g|] eqn:E.
  - eapply tracks_step with (B' := fun k _ => mem (opt_id (Some g)) k) in T.
    + exact T.
    + cbn [sceneRef set_containerGroupRef removeAndDisposeGroup dispose
           set_disposed remove_from_graph set_sceneRef].
      apply option_map_detach_all_ext. intros k ud. unfold is_obj, mem. simpl.
      now rewrite orb_false_r.
    + unfold refIds in *. cbn. now rewrite !opt_id_detach.
  - eapply tracks_step with (B' := fun k _ => mem [] k) in T.
    + exact T.
    + simpl. symmetry. apply option_map_detach_all_nothing.
    + unfold refIds. now rewrite E.
Qed.

Lemma cleanupUnpackedAreaGroup_tracks B n sep d i u c a s0 s :
  tracks B (n, sep, d, i, u, c, a) s0 s ->
  tracks (fun k ud => B k ud || mem a k) (n, sep, d, i, u, c, []) s0
    (cleanupUnpackedAreaGroup s).
Proof.
  intro T. pose proof T as [_ R]. unfold refIds in R. inversion R; subst.
  unfold cleanupUnpackedAreaGroup.
  destruct (unpackedAreaGroupRef s) as [g|] eqn:E.
  - eapply tracks_step with (B' := fun k _ => mem (opt_id (Some g)) k) in T.
    + exact T.
    + cbn [sceneRef set_unpackedAreaGroupRef removeAndDisposeGroup dispose
           set_disposed remove_from_graph set_sceneRef].
      apply option_map_detach_all_ext. intros k ud. unfold is_obj, mem. simpl.
      now rewrite orb_false_r.
    + unfold refIds in *. cbn. now rewrite !opt_id_detach.
  - eapply tracks_step with (B' := fun k _ => mem [] k) in T.
    + exact T.
    + simpl. symmetry. apply option_map_detach_all_nothing.
    + unfold refIds. now rewrite E.
Qed.

Lemma resetControlsTarget_tracks B r s0 s :
  tracks B r s0 s -> tracks B r s0 (resetControlsTarget s).
Proof.
  intros [H1 H2]. unfold resetControlsTarget.
  destruct (controlsRef s); split; assumption.
Qed.

Lemma sweepFlagged_tracks B r s0 s :
  tracks B r s0 s ->
  tracks (fun k ud => B k ud || flagged ud) r s0 (sweepFlagged s).
Proof.
  intro T. pose proof T as [_ R].
  eapply tracks_step with (B' := fun _ ud => flagged ud) in T; [exact T| |].
  - unfold sweepFlagged. destruct (sceneRef s) eqn:E; [reflexivity|].
    now rewrite E.
  - unfold sweepFlagged. destruct (sceneRef s); [|exact R].
    rewrite <- R. reflexivity.
Qed.

(** The effect of [cleanupScene] on the graph: the tracked objects and the
    flagged objects are gone, every ref is empty, and no identity has been
    allocated. *)
Lemma cleanupScene_graph s :
  tracks (cleanupBad s) (next_id s, [], [], [], [], [], []) s
    (cleanupScene false s).
Proof.
  assert (T0 : tracks (fun _ _ => false) (refIds s) s (set_animationFrameId None s)).
  { split; [|reflexivity]. symmetry. apply option_map_detach_all_nothing. }
  unfold refIds in T0 at 1.
  apply cleanupSeparator_tracks in T0.
  apply cleanupDashedLines_tracks in T0.
  apply cleanupItemMeshes_tracks in T0.
  apply cleanupUnpackedMeshes_tracks in T0.
  apply cleanupContainerGroup_tracks in T0.
  apply cleanupUnpackedAreaGroup_tracks in T0.
  apply resetControlsTarget_tracks in T0.
  apply sweepFlagged_tracks in T0.
  destruct T0 as [T1 T2].
  split; [|exact T2].
  unfold cleanupScene. cbn [sceneRef set_isRenderingRef]. rewrite T1.
  apply option_map_detach_all_ext. intros k ud.
  unfold cleanupBad, trackedIds. rewrite !mem_app. simpl.
  now rewrite !orb_assoc.
Qed.

End CleanupFacts.
